(** * async_combinator: a shallow embedding of [AsyncCombinator]

    The Python class [AsyncCombinator] (src/async_combinator/__init__.py)
    wraps one awaitable and offers [map], [then], [or_else], [map_err],
    [map_ok_or_else] and [unwrap_or_else].  Each method builds a coroutine
    (a closure over [self] and the supplied callables) and wraps it in a new
    [AsyncCombinator]; nothing runs until the outermost object is awaited.

    The embedding keeps what the code relies on:
    - exception objects live in a heap and are named by their identity, so
      that "the same error object" is equality of identities and the chain
      attributes [__cause__], [__context__], [__suppress_context__] are
      fields that the [raise] statement updates as CPython does;
    - the exception currently being handled (the innermost [except] block)
      is part of the state, because [raise] reads it (implicit chaining) and
      the bare [raise] re-raises it;
    - awaiting is driving to completion: a coroutine is a state transformer
      returning either a value or a raised exception.  Suspension points and
      the event loop are not represented (a chain is strictly sequential);
    - driving a coroutine object runs its code in the frame of the
      [async def]: a [StopIteration] that leaves the frame is replaced by a
      new [RuntimeError] (PEP 479), so no [await] ever raises a
      [StopIteration];
    - a caller-supplied callable is a small program (return, [raise], bare
      [raise], [try]/[except], sequencing), so that it can raise from inside
      its own [except] block;
    - every call of a caller-supplied callable is recorded in a trace, so
      that "is invoked exactly once" and "is never invoked" are statements
      about the trace.
    Tracebacks are not represented. *)

From Stdlib Require Import ZArith Lia.
From stdpp Require Import base list strings.

Local Open Scope string_scope.
Local Open Scope list_scope.

(** ** Values, exception objects, state *)

(** Identity of an exception object: its index in the heap. *)
Definition oid := nat.

(** Plain data that the scenarios use as results and exception arguments. *)
Inductive atom : Type :=
  | ANone
  | ABool (b : bool)
  | AInt (z : Z)
  | AStr (s : string).

(** An exception instance: its class (as the method resolution order, most
    specific class first), [args], and the three chaining attributes. *)
Record exc_obj : Type := ExcObj {
  exc_mro : list string;
  exc_args : list atom;
  exc_cause : option oid;            (* __cause__ *)
  exc_context : option oid;          (* __context__ *)
  exc_suppress_context : bool        (* __suppress_context__ *)
}.

Record state : Type := State {
  heap : list exc_obj;               (* exception objects, by identity *)
  handled : option oid;              (* exception of the innermost except block *)
  trace : list nat                   (* ids of the callables called, in order *)
}.

Inductive result (A : Type) : Type :=
  | Ret (v : A)
  | Raise (e : oid).
Arguments Ret {A} v.
Arguments Raise {A} e.

(** Python objects.  [Coroutine body] stands for an awaitable that has the
    attribute [__await__] (coroutine object, Task, Future); [body] is the
    code it runs when driven.  [GeneratorCoroutine body] is a
    generator-based coroutine (made with [types.coroutine]): [await] accepts
    it, but it has no attribute [__await__].
    [AsyncCombinator aw] is the instance built by [AsyncCombinator(aw)];
    [__init__] only stores its argument in [_awaitable]. *)
#[warnings="-register-all"]
Inductive pyobj : Type :=
  | Atom (a : atom)
  | Exc (e : oid)
  | Coroutine (body : state -> result pyobj * state)
  | GeneratorCoroutine (body : state -> result pyobj * state)
  | AsyncCombinator (_awaitable : pyobj).

(** ** The monad of Python code: state and exceptions *)

Definition M (A : Type) : Type := state -> result A * state.

Definition ret {A} (v : A) : M A := fun s => (Ret v, s).

Definition bind {A B} (m : M A) (k : A -> M B) : M B :=
  fun s =>
    match m s with
    | (Ret v, s1) => k v s1
    | (Raise e, s1) => (Raise e, s1)
    end.

Notation "'let*' x ':=' m 'in' k" := (bind m (fun x => k))
  (at level 10, x name, m at level 100, k at level 200).

Definition set_heap (h : list exc_obj) (s : state) : state :=
  State h (handled s) (trace s).

Definition set_handled (e : option oid) (s : state) : state :=
  State (heap s) e (trace s).

(** Record the call of the callable with identifier [id]. *)
Definition log (id : nat) (s : state) : state :=
  State (heap s) (handled s) (trace s ++ [id]).

(** [try: body except BaseException as e: handler e].  Inside the handler
    [e] is the handled exception; leaving the handler, by a return or by an
    exception, restores the one that was handled before. *)
Definition try_except {A} (body : M A) (handler : oid -> M A) : M A :=
  fun s =>
    match body s with
    | (Ret v, s1) => (Ret v, s1)
    | (Raise e, s1) =>
        let (r, s2) := handler e (set_handled (Some e) s1) in
        (r, set_handled (handled s1) s2)
    end.

(** ** The [raise] statement *)

Definition set_cause (o : oid) (c : option oid) (h : list exc_obj) : list exc_obj :=
  match h !! o with
  | Some x => <[o := ExcObj (exc_mro x) (exc_args x) c (exc_context x) true]> h
  | None => h
  end.

Definition set_context (o : oid) (c : option oid) (h : list exc_obj) : list exc_obj :=
  match h !! o with
  | Some x =>
      <[o := ExcObj (exc_mro x) (exc_args x) (exc_cause x) c (exc_suppress_context x)]> h
  | None => h
  end.

(** Before [value.__context__ = cur] CPython walks the context chain of
    [cur] and cuts the first link that points back to [value], so that no
    cycle is created.  The walk visits each object of the chain once; the
    fuel is the number of objects. *)
Fixpoint break_cycle (fuel : nat) (value cur : oid) (h : list exc_obj) : list exc_obj :=
  match fuel with
  | O => h
  | S fuel' =>
      match h !! cur with
      | Some x =>
          match exc_context x with
          | Some c =>
              if Nat.eqb c value then set_context cur None h
              else break_cycle fuel' value c h
          | None => h
          end
      | None => h
      end
  end.

(** Implicit chaining: an exception raised while [cur] is being handled
    gets [cur] as its [__context__], unless it is [cur] itself. *)
Definition chain_context (value : oid) (s : state) : state :=
  match handled s with
  | Some cur =>
      if Nat.eqb cur value then s
      else set_heap (set_context value (Some cur)
                       (break_cycle (length (heap s)) value cur (heap s))) s
  | None => s
  end.

(** What is raised: a new instance of a class, or an existing object. *)
Inductive raise_target : Type :=
  | NewExc (mro : list string) (args : list atom)
  | OldExc (e : oid).

(** The optional [from] clause. *)
Inductive from_clause : Type :=
  | NoFrom
  | FromNone
  | FromExc (c : oid).

Definition alloc (t : raise_target) (s : state) : oid * state :=
  match t with
  | NewExc mro args =>
      (length (heap s),
       set_heap (heap s ++ [ExcObj mro args None None false]) s)
  | OldExc e => (e, s)
  end.

Definition apply_from (o : oid) (fr : from_clause) (s : state) : state :=
  match fr with
  | NoFrom => s
  | FromNone => set_heap (set_cause o None (heap s)) s
  | FromExc c => set_heap (set_cause o (Some c) (heap s)) s
  end.

(** [raise t] or [raise t from c]: the cause is set first (which also sets
    [__suppress_context__]), then the context is chained. *)
Definition raise_stmt {A} (t : raise_target) (fr : from_clause) : M A :=
  fun s =>
    let (o, s1) := alloc t s in
    (Raise o, chain_context o (apply_from o fr s1)).

(** The bare [raise]: re-raise the handled exception, untouched. *)
Definition reraise {A} : M A :=
  fun s =>
    match handled s with
    | Some e => (Raise e, s)
    | None =>
        raise_stmt (NewExc ["RuntimeError"; "Exception"; "BaseException"; "object"]
                      [AStr "No active exception to reraise"]) NoFrom s
    end.

(** ** Caller-supplied callables *)

(** The body of a synchronous callable is a program: it returns an object,
    executes a [raise] statement or a bare [raise], protects a part by
    [try: ... except BaseException as x: ...], or runs one part and goes on
    with its result.  It may read its argument and the exception heap (for
    instance [error.args]). *)
Inductive action : Type :=
  | Return (v : pyobj)
  | RaiseStmt (t : raise_target) (fr : from_clause)
  | Reraise
  | TryExcept (body : action) (handler : oid -> list exc_obj -> action)
  | Seq (first : action) (rest : pyobj -> list exc_obj -> action).

Record callable : Type := Callable {
  fn_id : nat;
  fn_body : pyobj -> list exc_obj -> action
}.

Fixpoint perform (a : action) : M pyobj :=
  match a with
  | Return v => ret v
  | RaiseStmt t fr => raise_stmt t fr
  | Reraise => reraise
  | TryExcept body handler =>
      try_except (perform body) (fun x s => perform (handler x (heap s)) s)
  | Seq first rest =>
      bind (perform first) (fun w s => perform (rest w (heap s)) s)
  end.

(** The call [f(x)]. *)
Definition call (f : callable) (x : pyobj) : M pyobj :=
  fun s => let s1 := log (fn_id f) s in perform (fn_body f x (heap s1)) s1.

(** A coroutine object made from [async def] whose code is such a program. *)
Definition async_def (body : list exc_obj -> action) : pyobj :=
  Coroutine (fun s => perform (body (heap s)) s).

(** Truth value of an object, as tested by [if]. *)
Definition truthy (v : pyobj) : bool :=
  match v with
  | Atom ANone => false
  | Atom (ABool b) => b
  | Atom (AInt z) => negb (Z.eqb z 0)
  | Atom (AStr s) => negb (String.eqb s EmptyString)
  | _ => true
  end.

Definition AttributeError : list string :=
  ["AttributeError"; "Exception"; "BaseException"; "object"].
Definition TypeError : list string :=
  ["TypeError"; "Exception"; "BaseException"; "object"].
Definition ValueError : list string :=
  ["ValueError"; "Exception"; "BaseException"; "object"].
Definition KeyError : list string :=
  ["KeyError"; "LookupError"; "Exception"; "BaseException"; "object"].
Definition RuntimeError : list string :=
  ["RuntimeError"; "Exception"; "BaseException"; "object"].
Definition LookupError : list string :=
  ["LookupError"; "Exception"; "BaseException"; "object"].
Definition StopIteration : list string :=
  ["StopIteration"; "Exception"; "BaseException"; "object"].

(** The classes of an object, most specific first. *)
Definition type_mro (v : pyobj) (h : list exc_obj) : list string :=
  match v with
  | Atom ANone => ["NoneType"; "object"]
  | Atom (ABool _) => ["bool"; "int"; "object"]
  | Atom (AInt _) => ["int"; "object"]
  | Atom (AStr _) => ["str"; "object"]
  | Exc e => match h !! e with
             | Some x => exc_mro x
             | None => ["object"]
             end
  | Coroutine _ => ["coroutine"; "object"]
  | GeneratorCoroutine _ => ["generator"; "object"]
  | AsyncCombinator _ => ["AsyncCombinator"; "object"]
  end.

(** Name of the type of an object, as error messages print it. *)
Definition type_name (v : pyobj) (h : list exc_obj) : string :=
  default "object" (head (type_mro v h)).

(** [isinstance(v, classes)] for a tuple of classes whose metaclass is
    [type], as the built-in exception classes and plain subclasses of them
    are: the answer is membership in the method resolution order.  Classes
    that override [__instancecheck__] (abstract base classes with registered
    subclasses) are outside this definition. *)
Definition isinstance (v : pyobj) (classes : list string) (h : list exc_obj) : bool :=
  existsb (fun c => bool_decide (c ∈ type_mro v h)) classes.

(** ** src/async_combinator/_error_guard.py *)

(** [error_guard] applied to a tuple of classes returns the closure
    [guard]; [id] names that closure in the trace. *)
Definition error_guard (id : nat) (classes : list string) : callable :=
  Callable id (fun e h => Return (Atom (ABool (isinstance e classes h)))).

(** ** src/async_combinator/__init__.py: class AsyncCombinator *)

(** [__init__(self, awaitable)] stores the argument and checks nothing. *)
Definition __init__ (awaitable : pyobj) : M pyobj :=
  ret (AsyncCombinator awaitable).

(** [isinstance(e, StopIteration)] for the exception object [e]. *)
Definition is_stop_iteration (h : list exc_obj) (e : oid) : bool :=
  match h !! e with
  | Some x => bool_decide ("StopIteration" ∈ exc_mro x)
  | None => false
  end.

(** PEP 479: the [StopIteration] [e] is replaced by a new [RuntimeError]
    whose [__cause__] and [__context__] are both [e]. *)
Definition stopiteration_error (msg : string) (e : oid) (s : state)
  : result pyobj * state :=
  (Raise (length (heap s)),
   set_heap (heap s ++ [ExcObj RuntimeError [AStr msg] (Some e) (Some e) true]) s).

(** The frame of a generator or of an [async def]: what the code returns or
    raises leaves the frame as it is, except a [StopIteration]. *)
Definition frame (msg : string) (code : M pyobj) : M pyobj :=
  fun s =>
    match code s with
    | (Ret v, s1) => (Ret v, s1)
    | (Raise e, s1) =>
        if is_stop_iteration (heap s1) e then stopiteration_error msg e s1
        else (Raise e, s1)
    end.

Definition coroutine_frame : M pyobj -> M pyobj :=
  frame "coroutine raised StopIteration".

Definition generator_frame : M pyobj -> M pyobj :=
  frame "generator raised StopIteration".

(** [o.__await__()], driven to completion.  A coroutine object runs its code
    in its frame.  On an [AsyncCombinator] this is the method [__await__],
    which returns [self._awaitable.__await__()]; an object without the
    attribute raises [AttributeError] at the lookup. *)
Fixpoint __await__ (o : pyobj) : M pyobj :=
  match o with
  | Coroutine body => coroutine_frame body
  | AsyncCombinator _awaitable => __await__ _awaitable
  | _ =>
      fun s =>
        raise_stmt
          (NewExc AttributeError
             [AStr ("'" ++ type_name o (heap s)
                        ++ "' object has no attribute '__await__'")%string])
          NoFrom s
  end.

(** The expression [await o]: the iterator is taken from [__await__]; a
    generator-based coroutine is driven as it is; an object of any other
    type is refused with [TypeError] (message as CPython 3.12 words it). *)
Definition await (o : pyobj) : M pyobj :=
  match o with
  | Coroutine _ | AsyncCombinator _ => __await__ o
  | GeneratorCoroutine body => generator_frame body
  | _ =>
      fun s =>
        raise_stmt
          (NewExc TypeError
             [AStr ("object " ++ type_name o (heap s)
                        ++ " can't be used in 'await' expression")%string])
          NoFrom s
  end.

Definition _coro (self : pyobj) : M pyobj := await self.

Definition __call__ (self : pyobj) : pyobj := Coroutine (_coro self).

(** The code of each [async def] below is what runs inside the frame; the
    frame itself ([coroutine_frame]) is applied by [__await__] when the
    coroutine object that the method wraps is driven. *)

(** [return f(await self)] *)
Definition map_coro (self : pyobj) (f : callable) : M pyobj :=
  let* v := await self in call f v.

Definition map (self : pyobj) (f : callable) : pyobj :=
  AsyncCombinator (Coroutine (map_coro self f)).

(** [return await f(await self)] *)
Definition then_coro (self : pyobj) (f : callable) : M pyobj :=
  let* v := await self in
  let* w := call f v in
  await w.

Definition then_ (self : pyobj) (f : callable) : pyobj :=
  AsyncCombinator (Coroutine (then_coro self f)).

Definition or_else_coro (self : pyobj) (f error_guard : callable) : M pyobj :=
  try_except (await self)
    (fun e =>
       let* g := call error_guard (Exc e) in
       if truthy g then
         let* w := call f (Exc e) in await w
       else reraise).

Definition or_else (self : pyobj) (f error_guard : callable) : pyobj :=
  AsyncCombinator (Coroutine (or_else_coro self f error_guard)).

(** [f] should raise; if it returns, the bare [raise] follows. *)
Definition map_err_coro (self : pyobj) (f error_guard : callable) : M pyobj :=
  try_except (await self)
    (fun e =>
       let* g := call error_guard (Exc e) in
       let* _ :=
         (if truthy g then
            try_except (call f (Exc e))
              (fun f_e => raise_stmt (OldExc f_e) FromNone)
          else ret (Atom ANone)) in
       reraise).

Definition map_err (self : pyobj) (f error_guard : callable) : pyobj :=
  AsyncCombinator (Coroutine (map_err_coro self f error_guard)).

(** [e] should raise; [return f(result)] is outside the [try]. *)
Definition map_ok_or_else_coro (self : pyobj) (f e error_guard : callable) : M pyobj :=
  let* result :=
    try_except (await self)
      (fun _e =>
         let* g := call error_guard (Exc _e) in
         let* _ :=
           (if truthy g then
              try_except (call e (Exc _e))
                (fun e_e => raise_stmt (OldExc e_e) FromNone)
            else ret (Atom ANone)) in
         reraise) in
  call f result.

Definition map_ok_or_else (self : pyobj) (f e error_guard : callable) : pyobj :=
  AsyncCombinator (Coroutine (map_ok_or_else_coro self f e error_guard)).

Definition unwrap_or_else_coro (self : pyobj) (f error_guard : callable) : M pyobj :=
  try_except (await self)
    (fun e =>
       let* g := call error_guard (Exc e) in
       if truthy g then call f (Exc e) else reraise).

Definition unwrap_or_else (self : pyobj) (f error_guard : callable) : pyobj :=
  AsyncCombinator (Coroutine (unwrap_or_else_coro self f error_guard)).

(** ** Scenarios of the test suite *)

Definition initial : state := State [] None [].

(** [async def ok_coro(): return v] *)
Definition yielding (v : pyobj) : pyobj := async_def (fun _ => Return v).

(** [async def err_coro(): raise Cls(args)] *)
Definition raising (mro : list string) (args : list atom) : pyobj :=
  async_def (fun _ => RaiseStmt (NewExc mro args) NoFrom).

(** [def is_value_error(e): return isinstance(e, ValueError)] *)
Definition is_value_error : callable := error_guard 0 ["ValueError"].

(** [def to_key_error_func(error): raise KeyError(len(error.args[0]))] *)
Definition to_key_error_func : callable :=
  Callable 1 (fun error h =>
    match error with
    | Exc e =>
        match h !! e with
        | Some x =>
            match exc_args x with
            | AStr m :: _ =>
                RaiseStmt (NewExc KeyError [AInt (Z.of_nat (String.length m))]) NoFrom
            | _ => RaiseStmt (NewExc TypeError []) NoFrom
            end
        | None => RaiseStmt (NewExc AttributeError []) NoFrom
        end
    | _ => RaiseStmt (NewExc AttributeError []) NoFrom
    end).

(** [lambda n: computation_yielding(n + 1)] *)
Definition succ_async : callable :=
  Callable 2 (fun n _ =>
    match n with
    | Atom (AInt z) => Return (yielding (Atom (AInt (z + 1))))
    | _ => RaiseStmt (NewExc TypeError []) NoFrom
    end).

(** [lambda x: x * 2] *)
Definition double_func : callable :=
  Callable 3 (fun x _ =>
    match x with
    | Atom (AInt z) => Return (Atom (AInt (z * 2)))
    | _ => RaiseStmt (NewExc TypeError []) NoFrom
    end).

(** [lambda e: len(e.args[0])] *)
Definition len_message : callable :=
  Callable 4 (fun error h =>
    match error with
    | Exc e =>
        match h !! e with
        | Some x =>
            match exc_args x with
            | AStr m :: _ => Return (Atom (AInt (Z.of_nat (String.length m))))
            | _ => RaiseStmt (NewExc TypeError []) NoFrom
            end
        | None => RaiseStmt (NewExc AttributeError []) NoFrom
        end
    | _ => RaiseStmt (NewExc AttributeError []) NoFrom
    end).

(** A handler that breaks its contract and returns. *)
Definition returns_none : callable :=
  Callable 5 (fun _ _ => Return (Atom ANone)).

(** [lambda x: g(f(x))], named [id]. *)
Definition compose_callable (id : nat) (g f : callable) : callable :=
  Callable id (fun x h => Seq (fn_body f x h) (fun w h' => fn_body g w h')).

(** The object a [raise] statement raises, with its attributes before the
    statement touches them. *)
Definition raised_object (t : raise_target) (h : list exc_obj) : option (oid * exc_obj) :=
  match t with
  | NewExc mro args => Some (length h, ExcObj mro args None None false)
  | OldExc o => match h !! o with Some x => Some (o, x) | None => None end
  end.

(** The object at the bottom of a tower of combinators. *)
Fixpoint innermost (o : pyobj) : pyobj :=
  match o with
  | AsyncCombinator aw => innermost aw
  | _ => o
  end.

Definition is_coroutine (o : pyobj) : bool :=
  match o with
  | Coroutine _ => true
  | _ => false
  end.

(** ** Definitions used by the statements *)

(** Same class and same [args]: what [raise] never changes. *)
Definition same_class (x x' : exc_obj) : Prop :=
  exc_mro x' = exc_mro x /\ exc_args x' = exc_args x.

(** The handler of [map_err_coro] and of [map_ok_or_else_coro]. *)
Definition guarded_raise (f error_guard : callable) (e : oid) : M pyobj :=
  let* g := call error_guard (Exc e) in
  let* _ :=
    (if truthy g then
       try_except (call f (Exc e))
         (fun f_e => raise_stmt (OldExc f_e) FromNone)
     else ret (Atom ANone)) in
  reraise.

(** [lambda e: computation_yielding(len(e.args[0]))] *)
Definition recover_async : callable :=
  Callable 6 (fun error h =>
    match fn_body len_message error h with
    | Return n => Return (yielding n)
    | other => other
    end).



(** [lambda n: failing_computation()] *)
Definition then_failing : callable :=
  Callable 10 (fun _ _ => Return (raising RuntimeError [AStr "inner"])).

(** The claim C4 as the specification words it: once the handler of
    [map_err] has raised [o] in place of [e], the new error has no link to
    [e], neither as its cause nor as its context. *)
Definition map_err_discards_original : Prop :=
  forall (aw : pyobj) (f g : callable) (s s1 : state) (e : oid) (v : pyobj)
         t fr (o : oid) (x0 : exc_obj),
    await (AsyncCombinator aw) s = (Raise e, s1) ->
    fn_body g (Exc e) (heap s1) = Return v -> truthy v = true ->
    fn_body f (Exc e) (heap s1) = RaiseStmt t fr ->
    raised_object t (heap s1) = Some (o, x0) ->
    exists s2 x,
      await (map_err (AsyncCombinator aw) f g) s = (Raise o, s2)
      /\ heap s2 !! o = Some x
      /\ exc_cause x <> Some e /\ exc_context x <> Some e.

(** ** Method chains *)

(** One method call of a chain [c.m1(...).m2(...)...]. *)
Inductive stage : Type :=
  | Map (f : callable)
  | Then (f : callable)
  | OrElse (f error_guard : callable)
  | MapErr (f error_guard : callable)
  | MapOkOrElse (f e error_guard : callable)
  | UnwrapOrElse (f error_guard : callable).

Definition apply_stage (self : pyobj) (st : stage) : pyobj :=
  match st with
  | Map f => map self f
  | Then f => then_ self f
  | OrElse f g => or_else self f g
  | MapErr f g => map_err self f g
  | MapOkOrElse f e g => map_ok_or_else self f e g
  | UnwrapOrElse f g => unwrap_or_else self f g
  end.

(** [self.m1(...).m2(...)...], the methods applied from left to right. *)
Definition chain (self : pyobj) (sts : list stage) : pyobj :=
  fold_left apply_stage sts self.


(** The methods that only act on a failure. *)
Definition is_error_stage (st : stage) : bool :=
  match st with
  | OrElse _ _ | MapErr _ _ | UnwrapOrElse _ _ => true
  | _ => false
  end.



(** [lambda x: x], named [id]. *)
Definition identity (id : nat) : callable :=
  Callable id (fun x _ => Return x).

(** [lambda x: yielding(f(x))] where [async def yielding(v): return v]: [f]
    runs at the call, and the result is a coroutine that yields what [f]
    returned. *)
Definition lift_async (id : nat) (f : callable) : callable :=
  Callable id (fun x h => Seq (fn_body f x h) (fun w _ => Return (yielding w))).

(** Objects that [await] accepts. *)
Definition is_awaitable (o : pyobj) : bool :=
  match o with
  | Coroutine _ | GeneratorCoroutine _ | AsyncCombinator _ => true
  | _ => false
  end.

(** [def strict_guard(e): raise TypeError("guard")] *)
Definition strict_guard : callable :=
  Callable 13 (fun _ _ => RaiseStmt (NewExc TypeError [AStr "guard"]) NoFrom).

(** [def fails_on_value(value): raise ValueError("exception with value")] *)
Definition fails_on_value : callable :=
  Callable 15 (fun _ _ => RaiseStmt (NewExc ValueError [AStr "exception with value"]) NoFrom).

(** [def stops(error): raise StopIteration("done")] *)
Definition stops : callable :=
  Callable 16 (fun _ _ => RaiseStmt (NewExc StopIteration [AStr "done"]) NoFrom).

(** A handler that raises from inside its own [except] block:
    [try: raise LookupError("inner")]
    [except BaseException: raise KeyError("outer")] *)
Definition nested_handler : callable :=
  Callable 17 (fun _ _ =>
    TryExcept (RaiseStmt (NewExc LookupError [AStr "inner"]) NoFrom)
      (fun _ _ => RaiseStmt (NewExc KeyError [AStr "outer"]) NoFrom)).

(** The state in which a handler runs: inside [except BaseException as e],
    after the guard [g] was called. *)
Definition in_handler (g : callable) (e : oid) (s1 : state) : state :=
  log (fn_id g) (set_handled (Some e) s1).



(** The same state with another trace. *)
Definition set_trace (tr : list nat) (s : state) : state :=
  State (heap s) (handled s) tr.

(** What can be observed of an outcome when the trace is left aside. *)
Definition obs (r : result pyobj * state)
  : result pyobj * list exc_obj * option oid :=
  (fst r, heap (snd r), handled (snd r)).

(** * Properties *)

(** ** Awaiting what a method returns runs its coroutine in its frame *)

Section Unfolding.
Variables (self : pyobj) (f e error_guard : callable).

Lemma await_map : await (map self f) = coroutine_frame (map_coro self f).
Proof. reflexivity. Qed.

Lemma await_then : await (then_ self f) = coroutine_frame (then_coro self f).
Proof. reflexivity. Qed.

Lemma await_or_else :
  await (or_else self f error_guard)
  = coroutine_frame (or_else_coro self f error_guard).
Proof. reflexivity. Qed.

Lemma await_map_err :
  await (map_err self f error_guard)
  = coroutine_frame (map_err_coro self f error_guard).
Proof. reflexivity. Qed.

Lemma await_map_ok_or_else :
  await (map_ok_or_else self f e error_guard)
  = coroutine_frame (map_ok_or_else_coro self f e error_guard).
Proof. reflexivity. Qed.

Lemma await_unwrap_or_else :
  await (unwrap_or_else self f error_guard)
  = coroutine_frame (unwrap_or_else_coro self f error_guard).
Proof. reflexivity. Qed.
End Unfolding.

Create Rewrite HintDb drive.
#[export] Hint Rewrite await_map await_then await_or_else await_map_err
  await_map_ok_or_else await_unwrap_or_else : drive.

(** ** Frames *)

Lemma frame_ret msg (code : M pyobj) (s s1 : state) v :
  code s = (Ret v, s1) -> frame msg code s = (Ret v, s1).
Proof. intros H. unfold frame. now rewrite H. Qed.

Lemma frame_raise msg (code : M pyobj) (s s1 : state) e :
  code s = (Raise e, s1) ->
  is_stop_iteration (heap s1) e = false ->
  frame msg code s = (Raise e, s1).
Proof. intros H Hs. unfold frame. now rewrite H, Hs. Qed.

Lemma frame_stop msg (code : M pyobj) (s s1 : state) e :
  code s = (Raise e, s1) ->
  is_stop_iteration (heap s1) e = true ->
  frame msg code s = stopiteration_error msg e s1.
Proof. intros H Hs. unfold frame. now rewrite H, Hs. Qed.

(** The frame changes neither the trace nor the handled exception. *)
Lemma frame_frame msg (code : M pyobj) (s : state) :
  trace (snd (frame msg code s)) = trace (snd (code s))
  /\ handled (snd (frame msg code s)) = handled (snd (code s)).
Proof.
  unfold frame. destruct (code s) as [[v|e] s1]; cbn; [auto|].
  destruct (is_stop_iteration (heap s1) e); cbn; auto.
Qed.

(** What leaves a frame is never a [StopIteration]. *)
Lemma frame_not_stop msg (code : M pyobj) (s s1 : state) e :
  frame msg code s = (Raise e, s1) -> is_stop_iteration (heap s1) e = false.
Proof.
  unfold frame. destruct (code s) as [[v|e0] s0]; [discriminate|].
  destruct (is_stop_iteration (heap s0) e0) eqn:Hs.
  - unfold stopiteration_error. intros [= <- <-]. unfold is_stop_iteration. cbn.
    rewrite lookup_app_r by lia. now rewrite Nat.sub_diag.
  - now intros [= <- <-].
Qed.

(** ** Calls *)

Lemma call_return (f : callable) (x w : pyobj) (s : state) :
  fn_body f x (heap s) = Return w ->
  call f x s = (Ret w, log (fn_id f) s).
Proof. intros H. unfold call. cbn. rewrite H. reflexivity. Qed.

Lemma call_raise (f : callable) (x : pyobj) t fr (s : state) :
  fn_body f x (heap s) = RaiseStmt t fr ->
  call f x s = raise_stmt t fr (log (fn_id f) s).
Proof. intros H. unfold call. cbn. rewrite H. reflexivity. Qed.

Lemma chain_context_frame (o : oid) (s : state) :
  trace (chain_context o s) = trace s /\ handled (chain_context o s) = handled s.
Proof.
  unfold chain_context.
  destruct (handled s) as [cur|] eqn:Hh; [|auto].
  destruct (Nat.eqb cur o); cbn; auto.
Qed.

Lemma raise_stmt_frame {A} t fr (s : state) :
  trace (snd (@raise_stmt A t fr s)) = trace s
  /\ handled (snd (@raise_stmt A t fr s)) = handled s.
Proof.
  unfold raise_stmt.
  destruct (alloc t s) as [o s1] eqn:Ha. cbn.
  destruct (chain_context_frame o (apply_from o fr s1)) as [Ht Hh].
  rewrite Ht, Hh.
  destruct t; cbn in Ha; inversion Ha; subst; destruct fr; cbn; auto.
Qed.


Lemma reraise_frame (s : state) :
  trace (snd (@reraise pyobj s)) = trace s
  /\ handled (snd (@reraise pyobj s)) = handled s.
Proof.
  unfold reraise.
  pose proof (raise_stmt_frame (A:=pyobj)
                (NewExc ["RuntimeError"; "Exception"; "BaseException"; "object"]
                   [AStr "No active exception to reraise"]) NoFrom s) as H.
  destruct (handled s) eqn:Hh; [cbn; auto | exact H].
Qed.

(** Running a callable's program changes neither the trace nor, once it is
    over, the handled exception. *)
Lemma perform_frame (a : action) :
  forall s, trace (snd (perform a s)) = trace s
            /\ handled (snd (perform a s)) = handled s.
Proof.
  induction a as [w|t fr| |body IHb handler IHh|first IHf rest IHr]; intros s;
    cbn [perform].
  - cbn. auto.
  - apply (raise_stmt_frame (A:=pyobj)).
  - apply reraise_frame.
  - unfold try_except. destruct (IHb s) as [Ht Hh].
    destruct (perform body s) as [[v|e] s1]; cbn in Ht, Hh |- *; [auto|].
    destruct (IHh e (heap s1) (set_handled (Some e) s1)) as [Ht2 _].
    destruct (perform (handler e (heap s1)) (set_handled (Some e) s1)) as [r s2].
    cbn in Ht2 |- *. split; congruence.
  - unfold bind. destruct (IHf s) as [Ht Hh].
    destruct (perform first s) as [[w|e] s1]; cbn in Ht, Hh |- *; [|auto].
    destruct (IHr w (heap s1) s1) as [Ht2 Hh2]. split; congruence.
Qed.

(** A call adds exactly one entry to the trace, whatever the callable does,
    and leaves the handled exception as it was. *)
Lemma call_trace (f : callable) (x : pyobj) (s : state) :
  trace (snd (call f x s)) = trace s ++ [fn_id f].
Proof.
  unfold call. cbn.
  apply (perform_frame (fn_body f x (heap s)) (log (fn_id f) s)).
Qed.

Lemma call_handled (f : callable) (x : pyobj) (s : state) :
  handled (snd (call f x s)) = handled s.
Proof.
  unfold call. cbn.
  apply (perform_frame (fn_body f x (heap s)) (log (fn_id f) s)).
Qed.




(** ** The trace is never read *)

Lemma raise_stmt_set_trace t fr (s : state) (tr : list nat) :
  @raise_stmt pyobj t fr (set_trace tr s)
  = (fst (@raise_stmt pyobj t fr s), set_trace tr (snd (@raise_stmt pyobj t fr s))).
Proof.
  destruct s as [h hd tr0]. unfold raise_stmt, chain_context, set_trace.
  destruct t as [mro args|o]; destruct fr; destruct hd as [cur|]; cbn;
    try reflexivity;
    repeat case_match; reflexivity.
Qed.

Lemma perform_set_trace (a : action) :
  forall (s : state) (tr : list nat),
    perform a (set_trace tr s)
    = (fst (perform a s), set_trace tr (snd (perform a s))).
Proof.
  induction a as [w|t fr| |body IHb handler IHh|first IHf rest IHr]; intros s tr;
    cbn [perform].
  - reflexivity.
  - apply raise_stmt_set_trace.
  - unfold reraise. cbn [set_trace handled].
    destruct (handled s) eqn:Hh; [reflexivity|].
    apply raise_stmt_set_trace.
  - unfold try_except. rewrite (IHb s tr).
    destruct (perform body s) as [[v|e] s1]; cbn [fst snd]; [reflexivity|].
    change (set_handled (Some e) (set_trace tr s1))
      with (set_trace tr (set_handled (Some e) s1)).
    change (heap (set_trace tr (set_handled (Some e) s1)))
      with (heap (set_handled (Some e) s1)).
    rewrite (IHh e (heap (set_handled (Some e) s1)) (set_handled (Some e) s1) tr).
    destruct (perform (handler e (heap (set_handled (Some e) s1)))
                (set_handled (Some e) s1)) as [r s2].
    reflexivity.
  - unfold bind. rewrite (IHf s tr).
    destruct (perform first s) as [[w|e] s1]; cbn [fst snd]; [|reflexivity].
    change (heap (set_trace tr s1)) with (heap s1).
    rewrite (IHr w (heap s1) s1 tr).
    destruct (perform (rest w (heap s1)) s1) as [r s2]. reflexivity.
Qed.

(** Two runs of a program from states that differ in the trace only give the
    same outcome, the same exception heap and the same handled exception. *)
Lemma perform_obs (a : action) (s s' : state) :
  heap s = heap s' -> handled s = handled s' ->
  obs (perform a s) = obs (perform a s').
Proof.
  intros Hh Hd.
  assert (E : s = set_trace (trace s) s')
    by (destruct s, s'; cbn in *; subst; reflexivity).
  rewrite E at 1. rewrite perform_set_trace. reflexivity.
Qed.

Lemma obs_frame msg (code code' : M pyobj) (s s' : state) :
  obs (code s) = obs (code' s') ->
  obs (frame msg code s) = obs (frame msg code' s').
Proof.
  unfold frame, obs.
  destruct (code s) as [[v|e] s1], (code' s') as [[v'|e'] s1']; cbn;
    intros [= Hr Hh Hd].
  - now rewrite Hr, Hh, Hd.
  - rewrite Hr, Hh.
    destruct (is_stop_iteration (heap s1') e'); cbn; congruence.
Qed.

Lemma raise_stmt_raises {A} t fr (s : state) :
  exists o, fst (@raise_stmt A t fr s) = Raise o.
Proof. unfold raise_stmt. destruct (alloc t s) as [o s1]. now exists o. Qed.


(** ** Exception attributes under [raise] *)

Lemma same_class_refl x : same_class x x.
Proof. split; reflexivity. Qed.

Lemma same_class_trans x y z : same_class x y -> same_class y z -> same_class x z.
Proof. intros [? ?] [? ?]. split; congruence. Qed.

Lemma set_cause_lookup_eq (h : list exc_obj) o c x :
  h !! o = Some x ->
  set_cause o c h !! o
  = Some (ExcObj (exc_mro x) (exc_args x) c (exc_context x) true).
Proof.
  intros H. unfold set_cause. rewrite H.
  apply list_lookup_insert_eq. eapply lookup_lt_Some, H.
Qed.

Lemma set_context_lookup_eq (h : list exc_obj) o c x :
  h !! o = Some x ->
  set_context o c h !! o
  = Some (ExcObj (exc_mro x) (exc_args x) (exc_cause x) c (exc_suppress_context x)).
Proof.
  intros H. unfold set_context. rewrite H.
  apply list_lookup_insert_eq. eapply lookup_lt_Some, H.
Qed.

Lemma set_context_class (h : list exc_obj) o c i x :
  h !! i = Some x ->
  exists x', set_context o c h !! i = Some x' /\ same_class x x'.
Proof.
  intros H. destruct (decide (o = i)) as [->|Hne].
  - rewrite (set_context_lookup_eq _ _ _ _ H). eexists. split; [reflexivity|].
    split; reflexivity.
  - unfold set_context. destruct (h !! o) as [y|].
    + rewrite list_lookup_insert_ne by exact Hne.
      exists x. split; [exact H | apply same_class_refl].
    + exists x. split; [exact H | apply same_class_refl].
Qed.

Lemma break_cycle_class (n : nat) (value : oid) :
  forall (cur : oid) (h : list exc_obj) i x,
    h !! i = Some x ->
    exists x', break_cycle n value cur h !! i = Some x' /\ same_class x x'.
Proof.
  induction n as [|n IH]; intros cur h i x H; cbn.
  - exists x. split; [exact H | apply same_class_refl].
  - destruct (h !! cur) as [y|];
      [|exists x; split; [exact H | apply same_class_refl]].
    destruct (exc_context y) as [c|];
      [|exists x; split; [exact H | apply same_class_refl]].
    destruct (Nat.eqb c value).
    + now apply set_context_class.
    + now apply IH.
Qed.

(** A [raise] statement raises the object it names. *)
Lemma raise_stmt_result {A} t fr (s : state) o x0 :
  raised_object t (heap s) = Some (o, x0) ->
  fst (@raise_stmt A t fr s) = Raise o.
Proof.
  unfold raise_stmt. destruct t as [mro args|o']; cbn.
  - intros [= <- _]. reflexivity.
  - destruct (heap s !! o'); intros [= <- _]. reflexivity.
Qed.

(** After [alloc] the raised object is in the heap. *)
Lemma alloc_lookup t (s : state) o x0 :
  raised_object t (heap s) = Some (o, x0) ->
  fst (alloc t s) = o /\ heap (snd (alloc t s)) !! o = Some x0.
Proof.
  destruct t as [mro args|o']; cbn.
  - intros [= <- <-]. split; [reflexivity|].
    rewrite lookup_app_r by lia. now rewrite Nat.sub_diag.
  - destruct (heap s !! o') as [y|] eqn:Hy; intros [= <- <-]. now split.
Qed.

Lemma apply_from_lookup o fr (s : state) x :
  heap s !! o = Some x ->
  exists x', heap (apply_from o fr s) !! o = Some x' /\ same_class x x'.
Proof.
  intros H. destruct fr; cbn.
  - exists x. split; [exact H | apply same_class_refl].
  - rewrite (set_cause_lookup_eq _ _ _ _ H). eexists. split; [reflexivity|].
    split; reflexivity.
  - rewrite (set_cause_lookup_eq _ _ _ _ H). eexists. split; [reflexivity|].
    split; reflexivity.
Qed.

(** Implicit chaining keeps the raised object and, when another exception
    [cur] is being handled, makes [cur] its context. *)
Lemma chain_context_lookup o (s : state) x :
  heap s !! o = Some x ->
  exists x', heap (chain_context o s) !! o = Some x' /\ same_class x x'
    /\ (forall cur, handled s = Some cur -> cur <> o -> exc_context x' = Some cur).
Proof.
  intros H. unfold chain_context.
  destruct (handled s) as [cur|] eqn:Hh.
  - destruct (Nat.eqb_spec cur o) as [->|Hne].
    + exists x. repeat split; [exact H|]. intros c [= <-] Hc. now destruct Hc.
    + cbn.
      destruct (break_cycle_class (length (heap s)) o cur (heap s) o x H)
        as (y & Hy & Hxy).
      rewrite (set_context_lookup_eq _ _ _ _ Hy).
      eexists. split; [reflexivity|]. split.
      * destruct Hxy. split; cbn; assumption.
      * intros c [= <-] _. reflexivity.
  - exists x. repeat split; [exact H|]. intros c Hc. discriminate.
Qed.

Lemma alloc_frame t (s : state) :
  trace (snd (alloc t s)) = trace s /\ handled (snd (alloc t s)) = handled s.
Proof. destruct t; cbn; auto. Qed.

Lemma apply_from_frame o fr (s : state) :
  trace (apply_from o fr s) = trace s /\ handled (apply_from o fr s) = handled s.
Proof. destruct fr; cbn; auto. Qed.

(** The whole effect of a [raise] statement on the object it raises. *)
Lemma raise_stmt_spec {A} t fr (s : state) o x0 :
  raised_object t (heap s) = Some (o, x0) ->
  exists s' x,
    @raise_stmt A t fr s = (Raise o, s')
    /\ trace s' = trace s /\ handled s' = handled s
    /\ heap s' !! o = Some x /\ same_class x0 x
    /\ (forall cur, handled s = Some cur -> cur <> o -> exc_context x = Some cur).
Proof.
  intros Hobj.
  destruct (alloc_lookup t s o x0 Hobj) as [Ho Hx0].
  destruct (alloc_frame t s) as [Hta Hha].
  unfold raise_stmt.
  destruct (alloc t s) as [o' sa]. cbn in Ho, Hx0, Hta, Hha. subst o'.
  destruct (apply_from_lookup o fr sa x0 Hx0) as (x1 & Hx1 & Hc1).
  destruct (apply_from_frame o fr sa) as [Htf Hhf].
  destruct (chain_context_lookup o (apply_from o fr sa) x1 Hx1) as (x2 & Hx2 & Hc2 & Hctx).
  destruct (chain_context_frame o (apply_from o fr sa)) as [Htc Hhc].
  exists (chain_context o (apply_from o fr sa)), x2.
  split; [reflexivity|].
  split; [congruence|]. split; [congruence|]. split; [exact Hx2|].
  split; [eapply same_class_trans; eassumption|].
  intros cur Hcur Hne. apply Hctx; [congruence | exact Hne].
Qed.

(** [raise f_e from None] inside [except BaseException as f_e]: the cause is
    cleared and the context is kept. *)
Lemma raise_from_none {A} (o : oid) (s : state) :
  handled s = Some o ->
  @raise_stmt A (OldExc o) FromNone s
  = (Raise o, set_heap (set_cause o None (heap s)) s).
Proof.
  intros H. unfold raise_stmt, chain_context. cbn. rewrite H.
  now rewrite Nat.eqb_refl.
Qed.

Lemma is_stop_set_cause (o : oid) (c : option oid) (h : list exc_obj) (e : oid) :
  is_stop_iteration (set_cause o c h) e = is_stop_iteration h e.
Proof.
  unfold set_cause. destruct (h !! o) as [x|] eqn:Hx; [|reflexivity].
  unfold is_stop_iteration. destruct (decide (o = e)) as [->|Hne].
  - rewrite list_lookup_insert_eq by (eapply lookup_lt_Some, Hx).
    now rewrite Hx.
  - now rewrite list_lookup_insert_ne.
Qed.

Lemma set_cause_lookup_ne (o : oid) (c : option oid) (h : list exc_obj) (i : oid) :
  i <> o -> set_cause o c h !! i = h !! i.
Proof.
  intros Hne. unfold set_cause. destruct (h !! o); [|reflexivity].
  now rewrite list_lookup_insert_ne.
Qed.

Lemma length_set_cause (o : oid) (c : option oid) (h : list exc_obj) :
  length (set_cause o c h) = length h.
Proof.
  unfold set_cause. destruct (h !! o); [|reflexivity]. apply length_insert.
Qed.

(** A new instance of a class that does not derive from [StopIteration] is
    raised as a new object, and is not a [StopIteration]. *)
Lemma raise_new_not_stop mro args fr (s : state) :
  bool_decide ("StopIteration" ∈ mro) = false ->
  exists s' x,
    @raise_stmt pyobj (NewExc mro args) fr s = (Raise (length (heap s)), s')
    /\ trace s' = trace s /\ handled s' = handled s
    /\ heap s' !! length (heap s) = Some x
    /\ exc_mro x = mro /\ exc_args x = args
    /\ is_stop_iteration (heap s') (length (heap s)) = false.
Proof.
  intros Hm.
  destruct (raise_stmt_spec (A:=pyobj) (NewExc mro args) fr s (length (heap s))
              (ExcObj mro args None None false) eq_refl)
    as (s' & x & Hr & Ht & Hh & Hx & [Hc1 Hc2] & _).
  exists s', x. repeat split; try assumption.
  unfold is_stop_iteration. rewrite Hx. cbn in Hc1. now rewrite Hc1.
Qed.

(** ** No [await] raises a [StopIteration] *)

Lemma dunder_await_not_stop (o : pyobj) :
  forall (s s1 : state) (e : oid),
    __await__ o s = (Raise e, s1) -> is_stop_iteration (heap s1) e = false.
Proof.
  induction o as [a|x|body|body|aw IH]; intros s s1 e; cbn [__await__].
  - intros H.
    edestruct (raise_new_not_stop AttributeError) as (s' & y & Hr & _ & _ & _ & _ & _ & Hs);
      [reflexivity|].
    rewrite Hr in H. injection H as <- <-. exact Hs.
  - intros H.
    edestruct (raise_new_not_stop AttributeError) as (s' & y & Hr & _ & _ & _ & _ & _ & Hs);
      [reflexivity|].
    rewrite Hr in H. injection H as <- <-. exact Hs.
  - apply frame_not_stop.
  - intros H.
    edestruct (raise_new_not_stop AttributeError) as (s' & y & Hr & _ & _ & _ & _ & _ & Hs);
      [reflexivity|].
    rewrite Hr in H. injection H as <- <-. exact Hs.
  - apply IH.
Qed.

Lemma await_not_stop (o : pyobj) (s s1 : state) (e : oid) :
  await o s = (Raise e, s1) -> is_stop_iteration (heap s1) e = false.
Proof.
  destruct o as [a|x|body|body|aw]; cbn [await].
  - intros H.
    edestruct (raise_new_not_stop TypeError) as (s' & y & Hr & _ & _ & _ & _ & _ & Hs);
      [reflexivity|].
    rewrite Hr in H. injection H as <- <-. exact Hs.
  - intros H.
    edestruct (raise_new_not_stop TypeError) as (s' & y & Hr & _ & _ & _ & _ & _ & Hs);
      [reflexivity|].
    rewrite Hr in H. injection H as <- <-. exact Hs.
  - apply dunder_await_not_stop.
  - apply frame_not_stop.
  - apply dunder_await_not_stop.
Qed.

(** A frame around an [await] changes nothing. *)
Lemma frame_await msg (o : pyobj) (s : state) :
  frame msg (await o) s = await o s.
Proof.
  destruct (await o s) as [[v|e] s1] eqn:H.
  - now apply frame_ret.
  - apply frame_raise; [exact H|]. eapply await_not_stop, H.
Qed.

(** Evaluate the code of a method with the outcome [H] of the wrapped
    computation. *)
Ltac drive H :=
  unfold map_coro, then_coro, or_else_coro, map_err_coro,
    map_ok_or_else_coro, unwrap_or_else_coro, try_except, bind;
  rewrite H.

(** ** map *)

(** C1.  If the wrapped computation yields [v], awaiting [map(f)] is the call
    [f(v)] in the frame of [map_coro]: it yields what [f] returns, and the
    trace grows by exactly one entry, the one of [f].  If the wrapped
    computation raises [e], awaiting [map(f)] raises the same object [e] in
    the same state: nothing was called and no attribute of any exception
    changed. *)
Theorem map_applies_f_once (aw : pyobj) (f : callable) (s : state) :
  (forall v s1, await (AsyncCombinator aw) s = (Ret v, s1) ->
     await (map (AsyncCombinator aw) f) s = coroutine_frame (call f v) s1
     /\ trace (snd (await (map (AsyncCombinator aw) f) s)) = trace s1 ++ [fn_id f]
     /\ (forall w, fn_body f v (heap s1) = Return w ->
           await (map (AsyncCombinator aw) f) s = (Ret w, log (fn_id f) s1)))
  /\ (forall e s1, await (AsyncCombinator aw) s = (Raise e, s1) ->
        await (map (AsyncCombinator aw) f) s = (Raise e, s1)).
Proof.
  split.
  - intros v s1 H.
    assert (E : await (map (AsyncCombinator aw) f) s = coroutine_frame (call f v) s1).
    { rewrite await_map. unfold coroutine_frame, frame, map_coro, bind.
      now rewrite H. }
    rewrite E. repeat split.
    + unfold coroutine_frame. rewrite (proj1 (frame_frame _ (call f v) s1)).
      apply call_trace.
    + intros w Hw. apply frame_ret. now apply call_return.
  - intros e s1 H. rewrite await_map. apply frame_raise.
    + drive H. reflexivity.
    + eapply await_not_stop, H.
Qed.

Lemma map_applies_f_once_witness :
  await (map (AsyncCombinator (yielding (Atom (AInt 5)))) double_func) initial
    = (Ret (Atom (AInt 10)), State [] None [3])
  /\ await (map (AsyncCombinator (raising ValueError [AStr "error"])) double_func) initial
    = (Raise 0, State [ExcObj ValueError [AStr "error"] None None false] None []).
Proof.
  split.
  - destruct (map_applies_f_once (yielding (Atom (AInt 5))) double_func initial)
      as [Hok _].
    destruct (Hok (Atom (AInt 5)) initial eq_refl) as (_ & _ & Hret).
    exact (Hret (Atom (AInt 10)) eq_refl).
  - destruct (map_applies_f_once (raising ValueError [AStr "error"]) double_func initial)
      as [_ Herr].
    exact (Herr 0 _ eq_refl).
Defined.

(** ** The handler of map_err and map_ok_or_else *)

Lemma map_err_coro_unfold self f g :
  map_err_coro self f g = try_except (await self) (guarded_raise f g).
Proof. reflexivity. Qed.

Lemma map_ok_or_else_coro_unfold self f e g :
  map_ok_or_else_coro self f e g
  = (let* result := try_except (await self) (guarded_raise e g) in call f result).
Proof. reflexivity. Qed.



(** Guard true and the handler raises [o]: [o] is raised again [from None],
    which clears its cause and leaves everything else as the handler's own
    [raise] set it. *)
Lemma guarded_raise_raises (f g : callable) (e : oid) (s sf : state) v o :
  handled s = Some e ->
  fn_body g (Exc e) (heap s) = Return v ->
  truthy v = true ->
  call f (Exc e) (log (fn_id g) s) = (Raise o, sf) ->
  guarded_raise f g e s = (Raise o, set_heap (set_cause o None (heap sf)) sf).
Proof.
  intros Hh Hg Hv Hf. unfold guarded_raise, bind.
  rewrite (call_return g (Exc e) v s Hg), Hv. unfold try_except.
  rewrite Hf.
  rewrite (raise_from_none (A:=pyobj) o (set_handled (Some o) sf) eq_refl).
  destruct sf. reflexivity.
Qed.



(** ** or_else *)



(** ** Handlers that return *)



(** ** then *)

(** C7.  Awaiting [then(f)] first awaits the wrapped computation; when that
    yields [v], [f(v)] is called and the awaitable [w] it returns is awaited,
    the outcome of [w] (a value or an exception) being the outcome; when the
    wrapped computation raises [e], the same [e] is raised in the same state:
    [f] was not called.  A computation yielding [1] chained with
    [n => computation_yielding(n + 1)] yields [2]. *)
Theorem then_sequences :
  (forall (aw : pyobj) (f : callable) (s : state),
     (forall v s1 w, await (AsyncCombinator aw) s = (Ret v, s1) ->
        fn_body f v (heap s1) = Return w ->
        await (then_ (AsyncCombinator aw) f) s = await w (log (fn_id f) s1))
     /\ (forall e s1, await (AsyncCombinator aw) s = (Raise e, s1) ->
           await (then_ (AsyncCombinator aw) f) s = (Raise e, s1)))
  /\ await (then_ (AsyncCombinator (yielding (Atom (AInt 1)))) succ_async) initial
     = (Ret (Atom (AInt 2)), State [] None [2]).
Proof.
  split; [|reflexivity].
  intros aw f s. split.
  - intros v s1 w H Hf. rewrite await_then.
    assert (E : then_coro (AsyncCombinator aw) f s = await w (log (fn_id f) s1)).
    { drive H. now rewrite (call_return f v w s1 Hf). }
    unfold coroutine_frame, frame. rewrite E.
    destruct (await w (log (fn_id f) s1)) as [[r|e'] s2] eqn:Hw; [reflexivity|].
    now rewrite (await_not_stop _ _ _ _ Hw).
  - intros e s1 H. rewrite await_then. apply frame_raise.
    + drive H. reflexivity.
    + apply (await_not_stop _ _ _ _ H).
Qed.

Lemma then_sequences_witness :
  await (then_ (AsyncCombinator (yielding (Atom (AInt 1)))) then_failing) initial
    = (Raise 0, State [ExcObj RuntimeError [AStr "inner"] None None false] None [10])
  /\ await (then_ (AsyncCombinator (raising ValueError [AStr "error"])) succ_async) initial
    = (Raise 0, State [ExcObj ValueError [AStr "error"] None None false] None []).
Proof.
  split.
  - exact (proj1 (proj1 then_sequences (yielding (Atom (AInt 1))) then_failing initial)
             (Atom (AInt 1)) initial (raising RuntimeError [AStr "inner"])
             eq_refl eq_refl).
  - exact (proj2 (proj1 then_sequences (raising ValueError [AStr "error"])
                    succ_async initial)
             0 (State [ExcObj ValueError [AStr "error"] None None false] None [])
             eq_refl).
Defined.

(** ** map_err *)

(** The outcome of [map_err] and [map_ok_or_else] when the guard is true and
    the handler raises [o]. *)
Lemma handler_raises_outcome
    (self : pyobj) (f g : callable) (s s1 sf : state) (e o : oid) (v : pyobj) :
  await self s = (Raise e, s1) ->
  fn_body g (Exc e) (heap s1) = Return v -> truthy v = true ->
  call f (Exc e) (in_handler g e s1) = (Raise o, sf) ->
  try_except (await self) (guarded_raise f g) s
  = (Raise o, set_handled (handled s1) (set_heap (set_cause o None (heap sf)) sf))
  /\ trace sf = trace s1 ++ [fn_id g; fn_id f].
Proof.
  intros H Hg Hv Hf. split.
  - unfold try_except. rewrite H.
    now rewrite (guarded_raise_raises f g e (set_handled (Some e) s1) sf v o
                   eq_refl Hg Hv Hf).
  - pose proof (call_trace f (Exc e) (in_handler g e s1)) as Ht.
    rewrite Hf in Ht. cbn in Ht. now rewrite <- app_assoc in Ht.
Qed.

(** What the frame makes of that outcome. *)
Lemma handler_raises_in_frame
    (code : M pyobj) (s s1 sf : state) (o : oid) :
  code s
  = (Raise o, set_handled (handled s1) (set_heap (set_cause o None (heap sf)) sf)) ->
  (is_stop_iteration (heap sf) o = false ->
   exists s2,
     coroutine_frame code s = (Raise o, s2)
     /\ trace s2 = trace sf
     /\ (forall x, heap sf !! o = Some x ->
           heap s2 !! o
           = Some (ExcObj (exc_mro x) (exc_args x) None (exc_context x) true))
     /\ (forall i, i <> o -> heap s2 !! i = heap sf !! i))
  /\ (is_stop_iteration (heap sf) o = true ->
      exists s2,
        coroutine_frame code s = (Raise (length (heap sf)), s2)
        /\ trace s2 = trace sf
        /\ heap sf !! length (heap sf) = None
        /\ heap s2 !! length (heap sf)
           = Some (ExcObj RuntimeError [AStr "coroutine raised StopIteration"]
                     (Some o) (Some o) true)).
Proof.
  intros Hc. split; intros Hs.
  - eexists. split; [|split; [|split]].
    + apply (frame_raise _ _ _ _ _ Hc). cbn. now rewrite is_stop_set_cause.
    + reflexivity.
    + intros x Hx. cbn. now apply set_cause_lookup_eq.
    + intros i Hi. cbn. now apply set_cause_lookup_ne.
  - eexists. split; [|split; [|split]].
    + unfold coroutine_frame. rewrite (frame_stop _ _ _ _ _ Hc).
      * unfold stopiteration_error. cbn. rewrite length_set_cause. reflexivity.
      * cbn. now rewrite is_stop_set_cause.
    + reflexivity.
    + apply lookup_ge_None_2. lia.
    + cbn. rewrite lookup_app_r by (rewrite length_set_cause; lia).
      rewrite length_set_cause, Nat.sub_diag. reflexivity.
Qed.

(** C4, amended.  When the wrapped computation raises [e], the guard is true
    and the handler [f], called inside the [except] block, raises [o]: the
    guard and [f] were each called once.  If [o] is not a [StopIteration],
    awaiting [map_err(f, guard)] raises [o] itself, re-raised [from None]:
    its [__cause__] is [None] and [__suppress_context__] is set, while its
    class, arguments and [__context__] are as the [raise] in [f] left them,
    and no other exception object is touched.  If [o] is a [StopIteration],
    the frame of [map_err_coro] replaces it by a new [RuntimeError] whose
    [__cause__] is [o].  In the scenario, [ValueError("e")] becomes a
    [KeyError] carrying [1], whose [__context__] is that [ValueError]. *)
Theorem map_err_replaces_error :
  (forall (aw : pyobj) (f g : callable) (s s1 sf : state) (e o : oid) (v : pyobj),
     await (AsyncCombinator aw) s = (Raise e, s1) ->
     fn_body g (Exc e) (heap s1) = Return v -> truthy v = true ->
     call f (Exc e) (in_handler g e s1) = (Raise o, sf) ->
     trace sf = trace s1 ++ [fn_id g; fn_id f]
     /\ (is_stop_iteration (heap sf) o = false ->
         exists s2,
           await (map_err (AsyncCombinator aw) f g) s = (Raise o, s2)
           /\ trace s2 = trace sf
           /\ (forall x, heap sf !! o = Some x ->
                 heap s2 !! o
                 = Some (ExcObj (exc_mro x) (exc_args x) None (exc_context x) true))
           /\ (forall i, i <> o -> heap s2 !! i = heap sf !! i))
     /\ (is_stop_iteration (heap sf) o = true ->
         exists s2,
           await (map_err (AsyncCombinator aw) f g) s
           = (Raise (length (heap sf)), s2)
           /\ trace s2 = trace sf
           /\ heap sf !! length (heap sf) = None
           /\ heap s2 !! length (heap sf)
              = Some (ExcObj RuntimeError [AStr "coroutine raised StopIteration"]
                        (Some o) (Some o) true)))
  /\ await (map_err (AsyncCombinator (raising ValueError [AStr "e"]))
              to_key_error_func is_value_error) initial
     = (Raise 1,
        State [ExcObj ValueError [AStr "e"] None None false;
               ExcObj KeyError [AInt 1] None (Some 0) true] None [0; 1]).
Proof.
  split; [|reflexivity].
  intros aw f g s s1 sf e o v H Hg Hv Hf.
  destruct (handler_raises_outcome _ f g s s1 sf e o v H Hg Hv Hf) as [Hc Ht].
  split; [exact Ht|].
  rewrite await_map_err, map_err_coro_unfold.
  now apply handler_raises_in_frame with (s1 := s1).
Qed.

(** A handler that raises from inside its own [except] block: the [KeyError]
    it raises keeps the [LookupError] it was handling as [__context__]. *)
Lemma map_err_replaces_error_witness :
  exists s2,
    await (map_err (AsyncCombinator (raising ValueError [AStr "e"]))
             nested_handler is_value_error) initial = (Raise 2, s2)
    /\ trace s2 = [0; 17]
    /\ heap s2 !! 2 = Some (ExcObj KeyError [AStr "outer"] None (Some 1) true)
    /\ heap s2 !! 1 = Some (ExcObj LookupError [AStr "inner"] None (Some 0) false).
Proof.
  destruct (proj1 map_err_replaces_error
              (raising ValueError [AStr "e"]) nested_handler is_value_error
              initial (State [ExcObj ValueError [AStr "e"] None None false] None [])
              (State [ExcObj ValueError [AStr "e"] None None false;
                      ExcObj LookupError [AStr "inner"] None (Some 0) false;
                      ExcObj KeyError [AStr "outer"] None (Some 1) false]
                 (Some 0) [0; 17])
              0 2 (Atom (ABool true)) eq_refl eq_refl eq_refl eq_refl)
    as (_ & Hgo & _).
  destruct (Hgo eq_refl) as (s2 & H & Ht & Hx & Hrest).
  exists s2. split; [exact H|]. split; [exact Ht|]. split.
  - exact (Hx _ eq_refl).
  - etransitivity; [apply Hrest; lia | reflexivity].
Defined.

(** The claim C4 as worded is refuted twice.  In the scenario of the
    specification the [KeyError] that replaces [ValueError("e")] has that
    [ValueError], object [0], as its [__context__].  And a handler that
    raises a [StopIteration] (object [1]) does not see it become the new
    error: a [RuntimeError] (object [2]) is raised, with the [StopIteration]
    as its [__cause__]. *)
Lemma map_err_keeps_context_counterexample :
  (exists s2 x,
     await (map_err (AsyncCombinator (raising ValueError [AStr "e"]))
              to_key_error_func is_value_error) initial = (Raise 1, s2)
     /\ heap s2 !! 0 = Some (ExcObj ValueError [AStr "e"] None None false)
     /\ heap s2 !! 1 = Some x
     /\ exc_context x = Some 0)
  /\ ~ map_err_discards_original
  /\ await (map_err (AsyncCombinator (raising ValueError [AStr "e"]))
              stops is_value_error) initial
     = (Raise 2,
        State [ExcObj ValueError [AStr "e"] None None false;
               ExcObj StopIteration [AStr "done"] None (Some 0) true;
               ExcObj RuntimeError [AStr "coroutine raised StopIteration"]
                 (Some 1) (Some 1) true] None [0; 16]).
Proof.
  split; [|split].
  - eexists _, _. split; [reflexivity|]. cbn. repeat split.
  - intros Hclaim.
    destruct (Hclaim (raising ValueError [AStr "e"]) to_key_error_func is_value_error
                initial (State [ExcObj ValueError [AStr "e"] None None false] None [])
                0 (Atom (ABool true)) (NewExc KeyError [AInt 1]) NoFrom
                1 (ExcObj KeyError [AInt 1] None None false)
                eq_refl eq_refl eq_refl eq_refl eq_refl)
      as (s2 & x & H & Hx & _ & Hctx).
    vm_compute in H. injection H as <-. vm_compute in Hx. injection Hx as <-.
    apply Hctx. reflexivity.
  - reflexivity.
Qed.

(** ** unwrap_or_else *)




(** ** map_ok_or_else *)




(** ** Laws up to the trace *)

(** A frame inside a frame converts nothing more than the outer one alone. *)
Lemma frame_bind_frame msg (code : M pyobj) (k : pyobj -> M pyobj) (s : state) :
  frame msg (bind (frame msg code) k) s = frame msg (bind code k) s.
Proof.
  unfold frame at 1 3, bind.
  destruct (frame msg code s) as [[v|e] s1] eqn:Hf.
  - unfold frame in Hf. destruct (code s) as [[v'|e'] s1'].
    + now injection Hf as -> ->.
    + destruct (is_stop_iteration (heap s1') e'); discriminate.
  - rewrite (frame_not_stop _ _ _ _ _ Hf).
    unfold frame in Hf. destruct (code s) as [[v'|e'] s1']; [discriminate|].
    destruct (is_stop_iteration (heap s1') e') eqn:Hs.
    + now rewrite <- Hf.
    + now injection Hf as -> ->.
Qed.

Lemma obs_split (r r' : result pyobj * state) :
  obs r = obs r' ->
  fst r = fst r' /\ heap (snd r) = heap (snd r') /\ handled (snd r) = handled (snd r').
Proof. unfold obs. intros [= ? ? ?]. auto. Qed.

(** Calling [f] and then [g] on its result, against calling
    [lambda x: g(f(x))]. *)
Lemma call_compose_obs (f g : callable) (id : nat) (x : pyobj) (s : state) :
  obs (bind (call f x) (call g) s) = obs (call (compose_callable id g f) x s).
Proof.
  unfold bind, call, compose_callable. cbn [fn_body fn_id perform].
  change (log (fn_id f) s) with (set_trace (trace s ++ [fn_id f]) s).
  change (log id s) with (set_trace (trace s ++ [id]) s).
  change (heap (set_trace (trace s ++ [fn_id f]) s)) with (heap s).
  change (heap (set_trace (trace s ++ [id]) s)) with (heap s).
  unfold bind. rewrite !perform_set_trace.
  destruct (perform (fn_body f x (heap s)) s) as [[w|e] s1]; cbn [fst snd];
    [|reflexivity].
  change (log (fn_id g) (set_trace (trace s ++ [fn_id f]) s1))
    with (set_trace ((trace s ++ [fn_id f]) ++ [fn_id g]) s1).
  change (heap (set_trace ((trace s ++ [fn_id f]) ++ [fn_id g]) s1)) with (heap s1).
  change (heap (set_trace (trace s ++ [id]) s1)) with (heap s1).
  rewrite !perform_set_trace. reflexivity.
Qed.

(** Calling [lambda x: yielding(f(x))] and awaiting the result, against
    calling [f]. *)
Lemma call_lifted_obs (f : callable) (id : nat) (x : pyobj) (s : state) :
  obs (bind (call (lift_async id f) x) await s) = obs (call f x s).
Proof.
  unfold bind, call, lift_async. cbn [fn_body fn_id perform].
  change (log (fn_id f) s) with (set_trace (trace s ++ [fn_id f]) s).
  change (log id s) with (set_trace (trace s ++ [id]) s).
  change (heap (set_trace (trace s ++ [fn_id f]) s)) with (heap s).
  change (heap (set_trace (trace s ++ [id]) s)) with (heap s).
  unfold bind. rewrite !perform_set_trace.
  destruct (perform (fn_body f x (heap s)) s) as [[w|e] s1]; reflexivity.
Qed.

(** ** Two maps and the map of the composition *)

(** C8.  Awaiting [c.map(f).map(g)] and awaiting [c.map(lambda x: g(f(x)))]
    give the same outcome, value or raised exception object, and leave the
    same exception heap and the same handled exception; only the trace tells
    them apart (two calls against one). *)
Theorem map_map_is_map_compose (aw : pyobj) (f g : callable) (id : nat) (s : state) :
  fst (await (map (map (AsyncCombinator aw) f) g) s)
  = fst (await (map (AsyncCombinator aw) (compose_callable id g f)) s)
  /\ heap (snd (await (map (map (AsyncCombinator aw) f) g) s))
     = heap (snd (await (map (AsyncCombinator aw) (compose_callable id g f)) s))
  /\ handled (snd (await (map (map (AsyncCombinator aw) f) g) s))
     = handled (snd (await (map (AsyncCombinator aw) (compose_callable id g f)) s)).
Proof.
  apply obs_split.
  rewrite !await_map. unfold coroutine_frame.
  unfold map_coro at 1. rewrite await_map. unfold coroutine_frame.
  rewrite frame_bind_frame.
  apply obs_frame. unfold map_coro, bind.
  destruct (await (AsyncCombinator aw) s) as [[v|e] s1]; [|reflexivity].
  exact (call_compose_obs f g id v s1).
Qed.

(** ** Construction *)

(** Awaiting a tower of combinators over an object that is not awaitable
    raises [AttributeError] at the lookup of [__await__] on that object. *)
Lemma await_not_awaitable (o : pyobj) (s : state) :
  is_coroutine (innermost o) = false ->
  __await__ o s
  = raise_stmt
      (NewExc AttributeError
         [AStr ("'" ++ type_name (innermost o) (heap s)
                    ++ "' object has no attribute '__await__'")%string])
      NoFrom s.
Proof.
  induction o as [a|e|body|body|aw IH]; cbn; intros H.
  - reflexivity.
  - reflexivity.
  - discriminate.
  - reflexivity.
  - now apply IH.
Qed.

(** C9.  [AsyncCombinator(o)] succeeds for every object [o] and leaves the
    state alone.  When [o] (or, under further combinators, the object at the
    bottom) is not awaitable, awaiting the combinator raises a new exception,
    absent from the heap before: an [AttributeError] whose message says that
    the object has no attribute [__await__]. *)
Theorem construction_validates_nothing (o : pyobj) (s : state) :
  __init__ o s = (Ret (AsyncCombinator o), s)
  /\ (is_coroutine (innermost o) = false ->
      exists s' x,
        await (AsyncCombinator o) s = (Raise (length (heap s)), s')
        /\ heap s !! length (heap s) = None
        /\ heap s' !! length (heap s) = Some x
        /\ exc_mro x = AttributeError
        /\ exc_args x
           = [AStr ("'" ++ type_name (innermost o) (heap s)
                        ++ "' object has no attribute '__await__'")%string]).
Proof.
  split; [reflexivity|]. intros H.
  change (await (AsyncCombinator o) s) with (__await__ o s).
  rewrite (await_not_awaitable o s H).
  edestruct (raise_stmt_spec (A:=pyobj)) as (s' & x & -> & _ & _ & Hx & [Hm Ha] & _);
    [reflexivity|].
  exists s', x. split; [reflexivity|].
  split; [apply lookup_ge_None_2; lia|].
  split; [exact Hx|]. split; [exact Hm | exact Ha].
Qed.

Lemma construction_validates_nothing_witness :
  exists s' x,
    await (AsyncCombinator (Atom (AStr "not an awaitable"))) initial = (Raise 0, s')
    /\ heap s' !! 0 = Some x
    /\ exc_mro x = AttributeError
    /\ exc_args x = [AStr "'str' object has no attribute '__await__'"].
Proof.
  destruct (proj2 (construction_validates_nothing (Atom (AStr "not an awaitable")) initial)
              eq_refl) as (s' & x & H & _ & Hx & Hm & Ha).
  exists s', x. repeat split; assumption.
Defined.

(** * Further properties of the class *)

(** ** Wrapping and calling *)

(** Any number of [AsyncCombinator] layers around a coroutine is transparent:
    awaiting the outermost one is awaiting that coroutine; it gives what the
    code of the coroutine gives, in the same state, whenever that is not a
    [StopIteration] leaving its frame. *)
Theorem wrapping_is_transparent (o : pyobj) (body : M pyobj) (s : state) :
  innermost o = Coroutine body ->
  await (AsyncCombinator o) s = await (Coroutine body) s
  /\ (forall r s1,
        body s = (r, s1) ->
        (forall e, r = Raise e -> is_stop_iteration (heap s1) e = false) ->
        await (AsyncCombinator o) s = (r, s1)).
Proof.
  intros Hin.
  assert (E : await (AsyncCombinator o) s = await (Coroutine body) s).
  { change (await (AsyncCombinator o) s) with (__await__ o s).
    change (await (Coroutine body) s) with (coroutine_frame body s).
    revert Hin.
    induction o as [a|e|b|b|aw IH]; cbn; intros H; try discriminate.
    - now injection H as ->.
    - now apply IH. }
  split; [exact E|].
  intros r s1 Hb Hns. rewrite E.
  change (await (Coroutine body) s) with (coroutine_frame body s).
  destruct r as [v|e].
  - now apply frame_ret.
  - apply frame_raise; [exact Hb|]. now apply Hns.
Qed.

Lemma wrapping_is_transparent_witness :
  await (AsyncCombinator (AsyncCombinator (AsyncCombinator (yielding (Atom (AInt 3))))))
    initial = (Ret (Atom (AInt 3)), initial).
Proof.
  refine (proj2 (wrapping_is_transparent
                   (AsyncCombinator (AsyncCombinator (yielding (Atom (AInt 3)))))
                   _ initial eq_refl)
            (Ret (Atom (AInt 3))) initial eq_refl _).
  intros e He. discriminate He.
Defined.

(** Only an object with the attribute [__await__] can be wrapped.  A
    generator-based coroutine is driven by a bare [await], which gives its
    result; awaiting a combinator over it raises a new [AttributeError]
    instead, and the generator is not run.  Over an object that is not
    awaitable at all, the combinator raises [AttributeError] where the bare
    [await] raises [TypeError]. *)
Theorem wrapping_versus_bare_await (s : state) :
  (forall body v s1,
      body s = (Ret v, s1) ->
      await (GeneratorCoroutine body) s = (Ret v, s1)
      /\ exists sa xa,
           await (AsyncCombinator (GeneratorCoroutine body)) s
           = (Raise (length (heap s)), sa)
           /\ trace sa = trace s
           /\ heap sa !! length (heap s) = Some xa
           /\ exc_mro xa = AttributeError
           /\ exc_args xa = [AStr "'generator' object has no attribute '__await__'"])
  /\ (forall o, is_awaitable o = false ->
      exists sa xa sb xb,
        await (AsyncCombinator o) s = (Raise (length (heap s)), sa)
        /\ heap sa !! length (heap s) = Some xa /\ exc_mro xa = AttributeError
        /\ await o s = (Raise (length (heap s)), sb)
        /\ heap sb !! length (heap s) = Some xb /\ exc_mro xb = TypeError).
Proof.
  split.
  - intros body v s1 H. split.
    + cbn [await]. now apply frame_ret.
    + cbn [await __await__].
      edestruct (raise_new_not_stop AttributeError)
        as (sa & xa & Hr & Ht & _ & Hx & Hm & Ha & _); [reflexivity|].
      exists sa, xa. split; [exact Hr|]. repeat split; assumption.
  - intros o H.
    assert (Ha : await (AsyncCombinator o) s
                 = raise_stmt
                     (NewExc AttributeError
                        [AStr ("'" ++ type_name o (heap s)
                                   ++ "' object has no attribute '__await__'")%string])
                     NoFrom s)
      by (destruct o; try discriminate; reflexivity).
    assert (Hb : await o s
                 = raise_stmt
                     (NewExc TypeError
                        [AStr ("object " ++ type_name o (heap s)
                                   ++ " can't be used in 'await' expression")%string])
                     NoFrom s)
      by (destruct o; try discriminate; reflexivity).
    rewrite Ha, Hb.
    edestruct (raise_stmt_spec (A:=pyobj)) as (sa & xa & -> & _ & _ & Hxa & [Hma _] & _);
      [reflexivity|].
    edestruct (raise_stmt_spec (A:=pyobj)) as (sb & xb & -> & _ & _ & Hxb & [Hmb _] & _);
      [reflexivity|].
    exists sa, xa, sb, xb. repeat split; assumption.
Qed.

Lemma wrapping_versus_bare_await_witness :
  (await (GeneratorCoroutine (fun s => (Ret (Atom (AInt 3)), s))) initial
   = (Ret (Atom (AInt 3)), initial)
   /\ exists sa xa,
        await (AsyncCombinator (GeneratorCoroutine (fun s => (Ret (Atom (AInt 3)), s))))
          initial = (Raise 0, sa)
        /\ trace sa = []
        /\ heap sa !! 0 = Some xa
        /\ exc_mro xa = AttributeError
        /\ exc_args xa = [AStr "'generator' object has no attribute '__await__'"])
  /\ exists sa xa sb xb,
       await (AsyncCombinator (Atom (AInt 3))) initial = (Raise 0, sa)
       /\ heap sa !! 0 = Some xa /\ exc_mro xa = AttributeError
       /\ await (Atom (AInt 3)) initial = (Raise 0, sb)
       /\ heap sb !! 0 = Some xb /\ exc_mro xb = TypeError.
Proof.
  split.
  - exact (proj1 (wrapping_versus_bare_await initial)
             (fun s => (Ret (Atom (AInt 3)), s)) (Atom (AInt 3)) initial eq_refl).
  - exact (proj2 (wrapping_versus_bare_await initial) (Atom (AInt 3)) eq_refl).
Defined.

(** [c()] is a coroutine whose code is [return await self]: its own frame
    never changes the outcome, since no [await] raises a [StopIteration].
    Awaiting [c()], or a method applied to a new combinator built from it,
    gives the same outcome in the same state as with [c]. *)
Theorem calling_gives_equivalent_coroutine (aw : pyobj) (f : callable) (s : state) :
  await (__call__ (AsyncCombinator aw)) s = await (AsyncCombinator aw) s
  /\ await (map (AsyncCombinator (__call__ (AsyncCombinator aw))) f) s
     = await (map (AsyncCombinator aw) f) s.
Proof.
  assert (E : forall s0, await (AsyncCombinator (__call__ (AsyncCombinator aw))) s0
                         = await (AsyncCombinator aw) s0).
  { intros s0.
    change (await (AsyncCombinator (__call__ (AsyncCombinator aw))) s0)
      with (coroutine_frame (await (AsyncCombinator aw)) s0).
    apply frame_await. }
  split.
  - apply (E s).
  - rewrite !await_map. unfold coroutine_frame, frame, map_coro, bind.
    now rewrite E.
Qed.

(** ** One method call, for any receiver *)

Section Stages.
Variables (self : pyobj) (s s1 : state).

Lemma stage_passes_value (st : stage) (v : pyobj) :
  is_error_stage st = true ->
  await self s = (Ret v, s1) ->
  await (apply_stage self st) s = (Ret v, s1).
Proof.
  intros Hst H. destruct st; try discriminate; cbn [apply_stage].
  - rewrite await_or_else. apply frame_ret. drive H. reflexivity.
  - rewrite await_map_err. apply frame_ret. drive H. reflexivity.
  - rewrite await_unwrap_or_else. apply frame_ret. drive H. reflexivity.
Qed.

End Stages.

(** ** Chains of method calls *)


Lemma chain_passes_value (sts : list stage) :
  forall (self : pyobj) (s s1 : state) (v : pyobj),
    Forall (fun st => is_error_stage st = true) sts ->
    await self s = (Ret v, s1) ->
    await (chain self sts) s = (Ret v, s1).
Proof.
  induction sts as [|st sts IH]; intros self s s1 v Hall H.
  - exact H.
  - change (chain self (st :: sts)) with (chain (apply_stage self st) sts).
    inversion Hall as [|? ? Hst Hrest]; subst.
    apply IH; [exact Hrest|]. now apply stage_passes_value.
Qed.


(** A chain of [or_else], [map_err] and [unwrap_or_else] calls, of any length
    and in any order, over a computation that yields [v]: awaiting it yields
    [v] in the state the computation left.  No guard and no handler was
    called. *)
Theorem error_stages_pass_value_through
    (aw : pyobj) (sts : list stage) (s s1 : state) (v : pyobj) :
  Forall (fun st => is_error_stage st = true) sts ->
  await (AsyncCombinator aw) s = (Ret v, s1) ->
  await (chain (AsyncCombinator aw) sts) s = (Ret v, s1).
Proof. apply chain_passes_value. Qed.

Lemma error_stages_pass_value_through_witness :
  await (chain (AsyncCombinator (yielding (Atom (AInt 42))))
           [MapErr to_key_error_func is_value_error;
            OrElse recover_async is_value_error;
            UnwrapOrElse len_message is_value_error;
            MapErr returns_none is_value_error]) initial
  = (Ret (Atom (AInt 42)), initial).
Proof.
  apply error_stages_pass_value_through.
  - repeat constructor.
  - reflexivity.
Defined.



(** ** Guards that raise *)

(** In each of [or_else], [map_err], [map_ok_or_else] and [unwrap_or_else]
    the guard is called inside the [except] block.  When the guard itself
    raises [o] on [e], and [o] is not a [StopIteration], awaiting raises
    [o]: the guard is the only call made (no handler runs), and the
    exception objects are as the guard left them. *)
Theorem raising_guard_replaces_error
    (aw : pyobj) (f ok g : callable) (s s1 sg : state) (e o : oid) :
  await (AsyncCombinator aw) s = (Raise e, s1) ->
  call g (Exc e) (set_handled (Some e) s1) = (Raise o, sg) ->
  is_stop_iteration (heap sg) o = false ->
  let s2 := set_handled (handled s1) sg in
    trace s2 = trace s1 ++ [fn_id g] /\ heap s2 = heap sg
    /\ await (or_else (AsyncCombinator aw) f g) s = (Raise o, s2)
    /\ await (map_err (AsyncCombinator aw) f g) s = (Raise o, s2)
    /\ await (map_ok_or_else (AsyncCombinator aw) ok f g) s = (Raise o, s2)
    /\ await (unwrap_or_else (AsyncCombinator aw) f g) s = (Raise o, s2).
Proof.
  intros H Hg Hs s2. subst s2.
  assert (Hgr : forall h, try_except (await (AsyncCombinator aw)) (guarded_raise h g) s
                          = (Raise o, set_handled (handled s1) sg)).
  { intros h. unfold try_except. rewrite H. unfold guarded_raise, bind.
    now rewrite Hg. }
  split; [|split; [reflexivity|]].
  { pose proof (call_trace g (Exc e) (set_handled (Some e) s1)) as Ht.
    rewrite Hg in Ht. exact Ht. }
  repeat split.
  - rewrite await_or_else. apply frame_raise; [|exact Hs]. drive H. now rewrite Hg.
  - rewrite await_map_err, map_err_coro_unfold.
    apply frame_raise; [apply Hgr | exact Hs].
  - rewrite await_map_ok_or_else, map_ok_or_else_coro_unfold.
    apply frame_raise; [|exact Hs]. unfold bind. now rewrite Hgr.
  - rewrite await_unwrap_or_else. apply frame_raise; [|exact Hs].
    drive H. now rewrite Hg.
Qed.

Lemma raising_guard_replaces_error_witness :
  await (unwrap_or_else (AsyncCombinator (raising ValueError [AStr "e"]))
           len_message strict_guard) initial
  = (Raise 1,
     State [ExcObj ValueError [AStr "e"] None None false;
            ExcObj TypeError [AStr "guard"] None (Some 0) false] None [13]).
Proof.
  exact (proj2 (proj2 (proj2 (proj2 (proj2
           (raising_guard_replaces_error (raising ValueError [AStr "e"])
              len_message double_func strict_guard initial
              (State [ExcObj ValueError [AStr "e"] None None false] None [])
              (State [ExcObj ValueError [AStr "e"] None None false;
                      ExcObj TypeError [AStr "guard"] None (Some 0) false]
                 (Some 0) [13])
              0 1 eq_refl eq_refl eq_refl)))))).
Defined.

(** ** Failures on the recovery path *)

(** [or_else]: when the guard is true and the call [f(e)] itself raises [o],
    not a [StopIteration], awaiting raises [o] and nothing is awaited: the
    calls made are the guard and [f], and the exception objects are as [f]
    left them. *)
Theorem or_else_recovery_call_fails
    (aw : pyobj) (f g : callable) (s s1 sf : state) (e o : oid) (v : pyobj) :
  await (AsyncCombinator aw) s = (Raise e, s1) ->
  fn_body g (Exc e) (heap s1) = Return v -> truthy v = true ->
  call f (Exc e) (in_handler g e s1) = (Raise o, sf) ->
  is_stop_iteration (heap sf) o = false ->
  await (or_else (AsyncCombinator aw) f g) s
  = (Raise o, set_handled (handled s1) sf)
  /\ trace sf = trace s1 ++ [fn_id g; fn_id f].
Proof.
  intros H Hg Hv Hf Hs. split.
  - rewrite await_or_else. apply frame_raise; [|exact Hs]. drive H.
    rewrite (call_return g (Exc e) v (set_handled (Some e) s1) Hg), Hv.
    unfold in_handler in Hf. now rewrite Hf.
  - pose proof (call_trace f (Exc e) (in_handler g e s1)) as Ht.
    rewrite Hf in Ht. cbn in Ht. now rewrite <- app_assoc in Ht.
Qed.

Lemma or_else_recovery_call_fails_witness :
  await (or_else (AsyncCombinator (raising ValueError [AStr "e"]))
           nested_handler is_value_error) initial
  = (Raise 2,
     State [ExcObj ValueError [AStr "e"] None None false;
            ExcObj LookupError [AStr "inner"] None (Some 0) false;
            ExcObj KeyError [AStr "outer"] None (Some 1) false] None [0; 17]).
Proof.
  exact (proj1 (or_else_recovery_call_fails (raising ValueError [AStr "e"])
                  nested_handler is_value_error initial
                  (State [ExcObj ValueError [AStr "e"] None None false] None [])
                  (State [ExcObj ValueError [AStr "e"] None None false;
                          ExcObj LookupError [AStr "inner"] None (Some 0) false;
                          ExcObj KeyError [AStr "outer"] None (Some 1) false]
                     (Some 0) [0; 17])
                  0 2 (Atom (ABool true)) eq_refl eq_refl eq_refl eq_refl eq_refl)).
Defined.

(** ** then: what the function must return *)

(** [then(f)] over a computation that yields [v]: when [f(v)] raises [o],
    not a [StopIteration], that exception is raised and nothing more is
    awaited; when [f(v)] returns an object that is not awaitable, awaiting
    fails with a new [TypeError] (where [map] would have yielded the
    object).  In both cases [f] is the only call made. *)
Theorem then_needs_an_awaitable
    (aw : pyobj) (f : callable) (s s1 : state) (v : pyobj) :
  await (AsyncCombinator aw) s = (Ret v, s1) ->
  (forall o sf,
      call f v s1 = (Raise o, sf) ->
      is_stop_iteration (heap sf) o = false ->
      await (then_ (AsyncCombinator aw) f) s = (Raise o, sf)
      /\ trace sf = trace s1 ++ [fn_id f])
  /\ (forall w,
        fn_body f v (heap s1) = Return w -> is_awaitable w = false ->
        await (map (AsyncCombinator aw) f) s = (Ret w, log (fn_id f) s1)
        /\ exists s2 x,
             await (then_ (AsyncCombinator aw) f) s = (Raise (length (heap s1)), s2)
             /\ heap s1 !! length (heap s1) = None
             /\ heap s2 !! length (heap s1) = Some x
             /\ exc_mro x = TypeError
             /\ trace s2 = trace s1 ++ [fn_id f]).
Proof.
  intros H. split.
  - intros o sf Hf Hs. split.
    + rewrite await_then. apply frame_raise; [|exact Hs]. drive H. now rewrite Hf.
    + pose proof (call_trace f v s1) as Ht. now rewrite Hf in Ht.
  - intros w Hf Hw. split.
    + rewrite await_map. apply frame_ret. drive H.
      now rewrite (call_return f v w s1 Hf).
    + assert (Hb : await w (log (fn_id f) s1)
                   = raise_stmt
                       (NewExc TypeError
                          [AStr ("object " ++ type_name w (heap s1)
                                     ++ " can't be used in 'await' expression")%string])
                       NoFrom (log (fn_id f) s1))
        by (destruct w; try discriminate; reflexivity).
      edestruct (raise_new_not_stop TypeError)
        as (s' & x & Hr & Ht & _ & Hx & Hm & _ & Hs); [reflexivity|].
      rewrite Hr in Hb.
      exists s', x. split.
      * rewrite await_then. apply frame_raise; [|exact Hs]. drive H.
        rewrite (call_return f v w s1 Hf). exact Hb.
      * split; [apply lookup_ge_None_2; lia|].
        split; [exact Hx|]. split; [exact Hm | exact Ht].
Qed.

Lemma then_needs_an_awaitable_witness :
  await (map (AsyncCombinator (yielding (Atom (AInt 5)))) double_func) initial
    = (Ret (Atom (AInt 10)), State [] None [3])
  /\ (exists s2 x,
       await (then_ (AsyncCombinator (yielding (Atom (AInt 5)))) double_func) initial
         = (Raise 0, s2)
       /\ heap s2 !! 0 = Some x /\ exc_mro x = TypeError /\ trace s2 = [3])
  /\ await (then_ (AsyncCombinator (yielding (Atom (AInt 5)))) fails_on_value) initial
     = (Raise 0,
        State [ExcObj ValueError [AStr "exception with value"] None None false]
          None [15]).
Proof.
  split; [|split].
  - exact (proj1 (proj2 (then_needs_an_awaitable (yielding (Atom (AInt 5))) double_func
                           initial initial (Atom (AInt 5)) eq_refl)
                    (Atom (AInt 10)) eq_refl eq_refl)).
  - destruct (proj2 (proj2 (then_needs_an_awaitable (yielding (Atom (AInt 5)))
                              double_func initial initial (Atom (AInt 5)) eq_refl)
                       (Atom (AInt 10)) eq_refl eq_refl))
      as (s2 & x & Hthen & _ & Hx & Hm & Ht).
    exists s2, x. repeat split; assumption.
  - exact (proj1 (proj1 (then_needs_an_awaitable (yielding (Atom (AInt 5)))
                           fails_on_value initial initial (Atom (AInt 5)) eq_refl)
                    0 (State [ExcObj ValueError [AStr "exception with value"]
                                None None false] None [15])
                    eq_refl eq_refl)).
Defined.

(** ** map_ok_or_else *)

(** [c.map_ok_or_else(ok, err, guard)] is [c.map_err(err, guard).map(ok)]:
    awaiting either gives the same outcome in the same state, calls
    included. *)
Theorem map_ok_or_else_is_map_err_then_map
    (aw : pyobj) (ok err g : callable) (s : state) :
  await (map_ok_or_else (AsyncCombinator aw) ok err g) s
  = await (map (map_err (AsyncCombinator aw) err g) ok) s.
Proof.
  rewrite await_map_ok_or_else, await_map.
  unfold map_coro. rewrite await_map_err.
  unfold coroutine_frame. rewrite frame_bind_frame.
  reflexivity.
Qed.

(** An exception [o] raised by [ok], not a [StopIteration], is outside the
    [try]: it is raised as [ok] left it, and [ok] is the only call made;
    neither the guard nor [err] is called, whatever the guard would have
    answered on [o]. *)
Theorem map_ok_or_else_leaves_ok_unguarded
    (aw : pyobj) (ok err g : callable) (s s1 sf : state) (v : pyobj) (o : oid) :
  await (AsyncCombinator aw) s = (Ret v, s1) ->
  call ok v s1 = (Raise o, sf) ->
  is_stop_iteration (heap sf) o = false ->
  await (map_ok_or_else (AsyncCombinator aw) ok err g) s = (Raise o, sf)
  /\ trace sf = trace s1 ++ [fn_id ok].
Proof.
  intros H Hf Hs. split.
  - rewrite await_map_ok_or_else. apply frame_raise; [|exact Hs].
    drive H. exact Hf.
  - pose proof (call_trace ok v s1) as Ht. now rewrite Hf in Ht.
Qed.

Lemma map_ok_or_else_leaves_ok_unguarded_witness :
  await (map_ok_or_else (AsyncCombinator (yielding (Atom (AInt 5))))
           fails_on_value to_key_error_func is_value_error) initial
  = (Raise 0,
     State [ExcObj ValueError [AStr "exception with value"] None None false]
       None [15]).
Proof.
  exact (proj1 (map_ok_or_else_leaves_ok_unguarded (yielding (Atom (AInt 5)))
                  fails_on_value to_key_error_func is_value_error initial initial
                  (State [ExcObj ValueError [AStr "exception with value"]
                            None None false] None [15])
                  (Atom (AInt 5)) 0 eq_refl eq_refl eq_refl)).
Defined.

(** ** Laws relating the methods *)

(** [c.map(lambda x: x)] behaves as [c]: same outcome, same exception heap,
    same handled exception. *)
Theorem map_identity (aw : pyobj) (id : nat) (s : state) :
  fst (await (map (AsyncCombinator aw) (identity id)) s)
  = fst (await (AsyncCombinator aw) s)
  /\ heap (snd (await (map (AsyncCombinator aw) (identity id)) s))
     = heap (snd (await (AsyncCombinator aw) s))
  /\ handled (snd (await (map (AsyncCombinator aw) (identity id)) s))
     = handled (snd (await (AsyncCombinator aw) s)).
Proof.
  apply obs_split.
  rewrite await_map. unfold coroutine_frame.
  rewrite <- (frame_await "coroutine raised StopIteration" (AsyncCombinator aw) s).
  apply obs_frame. unfold map_coro, bind.
  destruct (await (AsyncCombinator aw) s) as [[v|e] s1]; reflexivity.
Qed.

(** [c.then(lambda x: yielding(f(x)))], where [yielding(v)] is a coroutine
    that returns [v], behaves as [c.map(f)]: same outcome (value or raised
    exception object), same exception heap, same handled exception. *)
Theorem then_of_lifted_is_map (aw : pyobj) (f : callable) (id : nat) (s : state) :
  fst (await (then_ (AsyncCombinator aw) (lift_async id f)) s)
  = fst (await (map (AsyncCombinator aw) f) s)
  /\ heap (snd (await (then_ (AsyncCombinator aw) (lift_async id f)) s))
     = heap (snd (await (map (AsyncCombinator aw) f) s))
  /\ handled (snd (await (then_ (AsyncCombinator aw) (lift_async id f)) s))
     = handled (snd (await (map (AsyncCombinator aw) f) s)).
Proof.
  apply obs_split.
  rewrite await_then, await_map. unfold coroutine_frame.
  apply obs_frame. unfold then_coro, map_coro, bind.
  destruct (await (AsyncCombinator aw) s) as [[v|e] s1]; [|reflexivity].
  exact (call_lifted_obs f id v s1).
Qed.

(** [c.unwrap_or_else(f, guard)] behaves as
    [c.or_else(lambda e: yielding(f(e)), guard)]: same outcome, same
    exception heap, same handled exception, whatever the wrapped computation,
    the guard and [f] do. *)
Theorem unwrap_or_else_is_or_else_of_lifted
    (aw : pyobj) (f g : callable) (id : nat) (s : state) :
  fst (await (unwrap_or_else (AsyncCombinator aw) f g) s)
  = fst (await (or_else (AsyncCombinator aw) (lift_async id f) g) s)
  /\ heap (snd (await (unwrap_or_else (AsyncCombinator aw) f g) s))
     = heap (snd (await (or_else (AsyncCombinator aw) (lift_async id f) g) s))
  /\ handled (snd (await (unwrap_or_else (AsyncCombinator aw) f g) s))
     = handled (snd (await (or_else (AsyncCombinator aw) (lift_async id f) g) s)).
Proof.
  apply obs_split.
  rewrite await_unwrap_or_else, await_or_else. unfold coroutine_frame.
  apply obs_frame.
  unfold unwrap_or_else_coro, or_else_coro, try_except, bind.
  destruct (await (AsyncCombinator aw) s) as [[v|e] s1]; [reflexivity|].
  destruct (call g (Exc e) (set_handled (Some e) s1)) as [[b|o] sg];
    [|reflexivity].
  destruct (truthy b); [|reflexivity].
  pose proof (call_lifted_obs f id (Exc e) sg) as E. unfold bind in E.
  destruct (call f (Exc e) sg) as [r sa].
  destruct (match call (lift_async id f) (Exc e) sg with
            | (Ret v, s2) => await v s2
            | (Raise e0, s2) => (Raise e0, s2)
            end) as [r' sb].
  unfold obs in E |- *. cbn in E |- *. injection E as -> -> _. reflexivity.
Qed.

(** ** Failures are never turned into values by map_err *)

(** Inside the [except] block the handler of [map_err] always ends in an
    exception, and calls the guard once and [f] at most once, after it. *)
Lemma guarded_raise_always_raises (f g : callable) (e : oid) (s : state) :
  handled s = Some e ->
  exists o s',
    guarded_raise f g e s = (Raise o, s')
    /\ (trace s' = trace s ++ [fn_id g]
        \/ trace s' = trace s ++ [fn_id g; fn_id f]).
Proof.
  intros Hh. unfold guarded_raise, bind.
  pose proof (call_trace g (Exc e) s) as Htg.
  pose proof (call_handled g (Exc e) s) as Hhg.
  destruct (call g (Exc e) s) as [[v|o] sg]; cbn in Htg, Hhg.
  - destruct (truthy v).
    + unfold try_except.
      pose proof (call_trace f (Exc e) sg) as Htf.
      pose proof (call_handled f (Exc e) sg) as Hhf.
      destruct (call f (Exc e) sg) as [[w|o] sf]; cbn in Htf, Hhf.
      * unfold reraise. rewrite Hhf, Hhg, Hh.
        eexists _, _. split; [reflexivity|].
        right. rewrite Htf, Htg. now rewrite <- app_assoc.
      * rewrite (raise_from_none (A:=pyobj) o (set_handled (Some o) sf) eq_refl).
        eexists _, _. split; [reflexivity|].
        right. cbn. rewrite Htf, Htg. now rewrite <- app_assoc.
    + cbn. unfold reraise. rewrite Hhg, Hh.
      eexists _, _. split; [reflexivity|]. left. exact Htg.
  - eexists _, _. split; [reflexivity|]. left. exact Htg.
Qed.

(** Whatever is raised inside a frame, something is raised out of it, and
    the trace is the same. *)
Lemma frame_still_raises msg (code : M pyobj) (s s1 : state) (o : oid) :
  code s = (Raise o, s1) ->
  exists o' s2, frame msg code s = (Raise o', s2) /\ trace s2 = trace s1.
Proof.
  intros H. unfold frame. rewrite H.
  destruct (is_stop_iteration (heap s1) o); eexists _, _; split; reflexivity.
Qed.

(** When the wrapped computation raises, awaiting [map_err(f, guard)] or
    [map_ok_or_else(ok, f, guard)] raises as well, whatever the guard and [f]
    do (return, raise, break their contract): a failure is never turned into
    a value.  The two raise the same object in the same state; the guard was
    called once, [f] at most once and after the guard, [ok] not at all. *)
Theorem map_err_never_yields_on_failure
    (aw : pyobj) (f ok g : callable) (s s1 : state) (e : oid) :
  await (AsyncCombinator aw) s = (Raise e, s1) ->
  exists o s2,
    await (map_err (AsyncCombinator aw) f g) s = (Raise o, s2)
    /\ await (map_ok_or_else (AsyncCombinator aw) ok f g) s = (Raise o, s2)
    /\ (trace s2 = trace s1 ++ [fn_id g]
        \/ trace s2 = trace s1 ++ [fn_id g; fn_id f]).
Proof.
  intros H.
  destruct (guarded_raise_always_raises f g e (set_handled (Some e) s1) eq_refl)
    as (o & s' & Hr & Ht).
  assert (Hc : try_except (await (AsyncCombinator aw)) (guarded_raise f g) s
               = (Raise o, set_handled (handled s1) s'))
    by (unfold try_except; now rewrite H, Hr).
  destruct (frame_still_raises "coroutine raised StopIteration" _ _ _ _ Hc)
    as (o' & s2 & Hfr & Ht2).
  exists o', s2.
  split; [|split].
  - rewrite await_map_err, map_err_coro_unfold. exact Hfr.
  - rewrite await_map_ok_or_else, map_ok_or_else_coro_unfold.
    unfold coroutine_frame, frame, bind. rewrite Hc.
    unfold frame in Hfr. now rewrite Hc in Hfr.
  - rewrite Ht2. exact Ht.
Qed.

Lemma map_err_never_yields_on_failure_witness :
  exists o s2,
    await (map_err (AsyncCombinator (raising ValueError [AStr "e"]))
             returns_none strict_guard) initial = (Raise o, s2)
    /\ await (map_ok_or_else (AsyncCombinator (raising ValueError [AStr "e"]))
                double_func returns_none strict_guard) initial = (Raise o, s2)
    /\ (trace s2 = [13] \/ trace s2 = [13; 5]).
Proof.
  exact (map_err_never_yields_on_failure (raising ValueError [AStr "e"])
           returns_none double_func strict_guard initial
           (State [ExcObj ValueError [AStr "e"] None None false] None []) 0 eq_refl).
Defined.
